(** * InstallAndTest.ipynb: the installation notebook and its smoke test

    The repository holds one Jupyter notebook, [InstallAndTest.ipynb].  It
    has five cells: a narration cell, a code cell running the editable
    install, a second narration cell, the code cell of the smoke test and a
    closing narration cell.  The notebook file stores, next to
    the source of every code cell, the outputs its last execution produced.

    This development has three layers:
    - [Nb]: the notebook as the file stores it (cells, sources, recorded
      outputs), transcribed field by field;
    - [Py]: the abstract syntax of the statements the code cell of the smoke
      test is written in, a printer back to the notebook text, and a
      definitional interpreter of those statements over a kernel state;
    - [Sims]: the package [pygmodw25.sims], which the notebook imports and
      whose code is not part of the notebook; the interpreter takes it as an
      interface, and one instance of the interface is written after the
      specification. *)

From Stdlib Require Import ZArith Ascii String List.
From stdpp Require Import base option list gmap strings pretty.

Set Warnings "-register-all".

Local Open Scope Z_scope.
Local Open Scope string_scope.
Local Open Scope list_scope.

(** ** Characters that a string literal cannot hold *)

Definition chr (n : nat) : string := String (ascii_of_nat n) EmptyString.
Definition nl : string := chr 10.
Definition esc : string := chr 27.
Definition dq : string := chr 34.

(** A line of text as the notebook stores it: the text and its newline. *)
Definition ln (s : string) : string := s +:+ nl.

(** ** The notebook file *)

Module Nb.

Inductive cell_type := markdown | code.

(** One entry of a code cell's [outputs] array. *)
Inductive output :=
| stream (name : string) (text : list string)
| error (ename evalue : string) (traceback : list string).

Record cell := Cell {
  ctype : cell_type;
  id : string;
  execution_count : option Z;
  source : list string;
  outputs : list output
}.

Definition cell_09cdc0c9 : cell := {|
  ctype := markdown;
  id := "09cdc0c9";
  execution_count := None;
  source := [
    ln "# Installation";
    ln "First, we will have to install all the dependencies of the code base and the code base used throughout the workshop as well. This is structured in a python package that you have just cloned from GitHub. `setup.py` includes all the dependencies that we can install with pip. We use the `-e`flag so that we can also change the code inside the package and the changes will be immediately visible when we use the code."
  ];
  outputs := []
|}.

Definition pip_log : list string := [
  ln "Obtaining file:///C:/Users/David/Desktop/PygameModelling25";
  ln "  Preparing metadata (setup.py): started";
  ln "  Preparing metadata (setup.py): finished with status 'done'";
  ln "Requirement already satisfied: pygame in c:\users\david\appdata\local\programs\python\python37\lib\site-packages (from PyGame-Modelling-Workshop-2025==1.0.0) (2.1.2)";
  ln "Requirement already satisfied: numpy in c:\users\david\appdata\local\programs\python\python37\lib\site-packages (from PyGame-Modelling-Workshop-2025==1.0.0) (1.20.1)Note: you may need to restart the kernel to use updated packages.";
  ln "Requirement already satisfied: scipy in c:\users\david\appdata\local\programs\python\python37\lib\site-packages (from PyGame-Modelling-Workshop-2025==1.0.0) (1.6.0)";
  nl;
  ln "Requirement already satisfied: matplotlib in c:\users\david\appdata\local\programs\python\python37\lib\site-packages (from PyGame-Modelling-Workshop-2025==1.0.0) (3.4.2)";
  ln "Requirement already satisfied: opencv-python in c:\users\david\appdata\local\programs\python\python37\lib\site-packages (from PyGame-Modelling-Workshop-2025==1.0.0) (4.4.0.46)";
  ln "Requirement already satisfied: h5py in c:\users\david\appdata\local\programs\python\python37\lib\site-packages (from PyGame-Modelling-Workshop-2025==1.0.0) (3.8.0)";
  ln "Requirement already satisfied: cycler>=0.10 in c:\users\david\appdata\local\programs\python\python37\lib\site-packages (from matplotlib->PyGame-Modelling-Workshop-2025==1.0.0) (0.10.0)";
  ln "Requirement already satisfied: kiwisolver>=1.0.1 in c:\users\david\appdata\local\programs\python\python37\lib\site-packages (from matplotlib->PyGame-Modelling-Workshop-2025==1.0.0) (1.3.1)";
  ln "Requirement already satisfied: pillow>=6.2.0 in c:\users\david\appdata\local\programs\python\python37\lib\site-packages (from matplotlib->PyGame-Modelling-Workshop-2025==1.0.0) (8.3.1)";
  ln "Requirement already satisfied: pyparsing>=2.2.1 in c:\users\david\appdata\local\programs\python\python37\lib\site-packages (from matplotlib->PyGame-Modelling-Workshop-2025==1.0.0) (2.4.7)";
  ln "Requirement already satisfied: python-dateutil>=2.7 in c:\users\david\appdata\local\programs\python\python37\lib\site-packages (from matplotlib->PyGame-Modelling-Workshop-2025==1.0.0) (2.8.1)";
  ln "Requirement already satisfied: six in c:\users\david\appdata\local\programs\python\python37\lib\site-packages (from cycler>=0.10->matplotlib->PyGame-Modelling-Workshop-2025==1.0.0) (1.15.0)";
  ln "Installing collected packages: PyGame-Modelling-Workshop-2025";
  ln "  Attempting uninstall: PyGame-Modelling-Workshop-2025";
  ln "    Found existing installation: PyGame-Modelling-Workshop-2025 1.0.0";
  ln "    Uninstalling PyGame-Modelling-Workshop-2025-1.0.0:";
  ln "      Successfully uninstalled PyGame-Modelling-Workshop-2025-1.0.0";
  ln "  Running setup.py develop for PyGame-Modelling-Workshop-2025";
  ln "Successfully installed PyGame-Modelling-Workshop-2025-1.0.0"
].

Definition cell_20039ccd : cell := {|
  ctype := code;
  id := "20039ccd";
  execution_count := Some 1;
  source := [ "%pip install -e ." ];
  outputs := [ stream "stdout" pip_log ]
|}.

Definition cell_efdb2980 : cell := {|
  ctype := markdown;
  id := "efdb2980";
  execution_count := None;
  source := [
    ln "# Test the Installation";
    "to test the installation, we can start using the installed python package `pygmodw23` and start a short simulation of randomly moving agents."
  ];
  outputs := []
|}.

Definition cell_ed4fe3ed : cell := {|
  ctype := code;
  id := "ed4fe3ed";
  execution_count := Some 3;
  source := [
    ln "from pygmodw25.sims import Simulation";
    nl;
    ln "# Creating a short test simulation instance with 15 agents and 150 timestep simulation time";
    ln "test_simulation = Simulation(N=15, T=150)";
    nl;
    ln "# Start the simulation";
    "test_simulation.start()"
  ];
  outputs := [
    stream "stdout" [
      ln "Running simulation start method!";
      ln "Starting main simulation loop!";
      ln "Bye bye!"
    ];
    error "SystemExit" EmptyString [
      ln "An exception has occurred, use %tb to see the full traceback.";
      ln (esc +:+ "[1;31mSystemExit" +:+ esc +:+ "[0m")
    ];
    stream "stderr" [
      ln "c:\users\david\appdata\local\programs\python\python37\lib\site-packages\IPython\core\interactiveshell.py:3449: UserWarning: To exit: use 'exit', 'quit', or Ctrl-D.";
      ln ("  warn(" +:+ dq +:+ "To exit: use 'exit', 'quit', or Ctrl-D." +:+ dq +:+ ", stacklevel=1)")
    ]
  ]
|}.

Definition cell_5ecd312d : cell := {|
  ctype := markdown;
  id := "5ecd312d";
  execution_count := None;
  source := [
    "In case you have seen the simulation window and the agents moving around, you are ready for the workshop! (It can happen that the pygame window will not pop up but will open in the background.)"
  ];
  outputs := []
|}.

(** The [cells] array of the file, in file order. *)
Definition cells : list cell :=
  [ cell_09cdc0c9; cell_20039ccd; cell_efdb2980; cell_ed4fe3ed; cell_5ecd312d ].

(** *** Reading the recorded outputs *)

(** The lines a cell wrote on the stream called [name]. *)
Definition stream_text (name : string) (c : cell) : list string :=
  flat_map (fun o => match o with
                     | stream n t => if String.eqb n name then t else []
                     | error _ _ _ => []
                     end) (outputs c).

(** The exceptions a cell's execution ended with, as (ename, evalue). *)
Definition errors (c : cell) : list (string * string) :=
  flat_map (fun o => match o with
                     | stream _ _ => []
                     | error n v _ => [(n, v)]
                     end) (outputs c).

Definition is_error (o : output) : bool :=
  match o with error _ _ _ => true | stream _ _ => false end.

(** The whole text of a cell, its lines joined. *)
Definition text (c : cell) : string := fold_right String.append EmptyString (source c).

(** [contains pat s]: [pat] occurs somewhere in [s]. *)
Definition contains (pat s : string) : bool :=
  match String.index 0 pat s with Some _ => true | None => false end.

End Nb.

(** ** The statements of the code cell *)

Module Py.

(** *** Syntax *)

Inductive expr :=
| EInt (n : Z)
| EName (x : string)
| EAttr (e : expr) (attr : string)
| ECall (f : expr) (args : list expr) (kwargs : list (string * expr)).

(** The cell uses the first three statements.  [STry] is the bare
    [try: ... except: ...], which the cell does not use: it is here so that
    its absence can be stated. *)
Inductive stmt :=
| SImportFrom (module name : string)
| SAssign (target : string) (e : expr)
| SExpr (e : expr)
| STry (body handler : list stmt).

(** A cell is a sequence of lines; blank lines and comments carry no
    statement. *)
Inductive line :=
| Blank
| Comment (text : string)
| Stmt (s : stmt).

Definition statements (p : list line) : list stmt :=
  omap (fun l => match l with Stmt s => Some s | _ => None end) p.

(** The code cell ed4fe3ed, with the two literals of the constructor call
    as parameters. *)
Definition smoke_test_with (N T : Z) : list line := [
  Stmt (SImportFrom "pygmodw25.sims" "Simulation");
  Blank;
  Comment "Creating a short test simulation instance with 15 agents and 150 timestep simulation time";
  Stmt (SAssign "test_simulation"
          (ECall (EName "Simulation") [] [("N", EInt N); ("T", EInt T)]));
  Blank;
  Comment "Start the simulation";
  Stmt (SExpr (ECall (EAttr (EName "test_simulation") "start") [] []))
].

(** The cell as the notebook has it: [Simulation(N=15, T=150)]. *)
Definition smoke_test : list line := smoke_test_with 15 150.

(** *** Printing the syntax back to text *)

Definition join (sep : string) (l : list string) : string :=
  match l with
  | [] => EmptyString
  | s :: l' => fold_left (fun acc x => acc +:+ sep +:+ x) l' s
  end.

Fixpoint render_expr (e : expr) : string :=
  match e with
  | EInt n => pretty n
  | EName x => x
  | EAttr e' a => render_expr e' +:+ "." +:+ a
  | ECall f args kwargs =>
      render_expr f +:+ "(" +:+
      join ", " (map render_expr args ++
                 map (fun kw => fst kw +:+ "=" +:+ render_expr (snd kw)) kwargs)
      +:+ ")"
  end.

Fixpoint render_stmt (indent : string) (s : stmt) : list string :=
  match s with
  | SImportFrom m n => [indent +:+ "from " +:+ m +:+ " import " +:+ n]
  | SAssign x e => [indent +:+ x +:+ " = " +:+ render_expr e]
  | SExpr e => [indent +:+ render_expr e]
  | STry body handler =>
      [indent +:+ "try:"]
      ++ flat_map (render_stmt (indent +:+ "    ")) body
      ++ [indent +:+ "except:"]
      ++ flat_map (render_stmt (indent +:+ "    ")) handler
  end.

Definition render_line (l : line) : list string :=
  match l with
  | Blank => [EmptyString]
  | Comment t => ["# " +:+ t]
  | Stmt s => render_stmt EmptyString s
  end.

(** The notebook stores a cell's text as its lines, each but the last with
    its newline. *)
Fixpoint nb_lines (l : list string) : list string :=
  match l with
  | [] => []
  | [s] => [s]
  | s :: l' => ln s :: nb_lines l'
  end.

Definition render (p : list line) : list string := nb_lines (flat_map render_line p).

(** *** What the text of a program shows without running it *)

(** A call site: the callee as written, its positional and its keyword
    arguments. *)
Record call_site := CallSite {
  callee : string;
  positional : list expr;
  keywords : list (string * expr)
}.

Fixpoint calls_of_expr (e : expr) : list call_site :=
  match e with
  | EInt _ | EName _ => []
  | EAttr e' _ => calls_of_expr e'
  | ECall f args kwargs =>
      calls_of_expr f
      ++ flat_map calls_of_expr args
      ++ flat_map (fun kw => calls_of_expr (snd kw)) kwargs
      ++ [CallSite (render_expr f) args kwargs]
  end.

Fixpoint calls_of_stmt (s : stmt) : list call_site :=
  match s with
  | SImportFrom _ _ => []
  | SAssign _ e | SExpr e => calls_of_expr e
  | STry body handler => flat_map calls_of_stmt body ++ flat_map calls_of_stmt handler
  end.

Definition calls_of (p : list line) : list call_site :=
  flat_map calls_of_stmt (statements p).

(** The modules a program imports from, and the names it binds. *)
Fixpoint imports_of_stmt (s : stmt) : list (string * string) :=
  match s with
  | SImportFrom m n => [(m, n)]
  | SAssign _ _ | SExpr _ => []
  | STry body handler => flat_map imports_of_stmt body ++ flat_map imports_of_stmt handler
  end.

Definition imports_of (p : list line) : list (string * string) :=
  flat_map imports_of_stmt (statements p).

Fixpoint targets_of_stmt (s : stmt) : list string :=
  match s with
  | SImportFrom _ n => [n]
  | SAssign x _ => [x]
  | SExpr _ => []
  | STry body handler => flat_map targets_of_stmt body ++ flat_map targets_of_stmt handler
  end.

(** [handles_errors s]: the statement is a [try], the one statement that
    holds other statements and the one that can keep an exception in. *)
Definition handles_errors (s : stmt) : bool :=
  match s with
  | STry _ _ => true
  | SImportFrom _ _ | SAssign _ _ | SExpr _ => false
  end.

(** The top-level package of a dotted module name. *)
Fixpoint top_package (m : string) : string :=
  match m with
  | EmptyString => EmptyString
  | String c m' => if Ascii.eqb c "."%char then EmptyString else String c (top_package m')
  end.

(** *** Values, exceptions and outcomes *)

Inductive value :=
| VNone
| VInt (n : Z)
| VClass                 (* the class [Simulation] *)
| VRef (addr : nat)      (* an instance of it, by its address in the heap *)
| VStart (self : nat).   (* the bound method [start] of the instance at [self] *)

(** An exception, by the two fields a notebook records of it. *)
Record exn := Exn { ename : string; evalue : string }.

Inductive outcome (A : Type) :=
| Returned (a : A)
| Raised (e : exn).
Arguments Returned {A} a.
Arguments Raised {A} e.

Definition NameError (x : string) : exn :=
  Exn "NameError" ("name '" +:+ x +:+ "' is not defined").
Definition ModuleNotFoundError (m : string) : exn :=
  Exn "ModuleNotFoundError" ("No module named '" +:+ m +:+ "'").
Definition ImportError (n m : string) : exn :=
  Exn "ImportError" ("cannot import name '" +:+ n +:+ "' from '" +:+ m +:+ "'").
Definition AttributeError (a : string) : exn :=
  Exn "AttributeError" ("object has no attribute '" +:+ a +:+ "'").
Definition TypeError (msg : string) : exn := Exn "TypeError" msg.
Definition SystemExit : exn := Exn "SystemExit" EmptyString.

(** *** The package the cell imports from

    The notebook reaches [pygmodw25.sims] through two operations only: the
    constructor of [Simulation] and the method [start] of an instance.  Both
    receive the positional and the keyword arguments of the call; both may
    print lines and may raise; [start] may also change the instance. *)
Record package := Package {
  sim : Type;
  sim_init : list value -> list (string * value) -> list string * outcome sim;
  sim_start : sim -> list value -> list (string * value) ->
              list string * sim * outcome value
}.

(** What a run does that can be seen from outside, in the order it happens. *)
Inductive event :=
| EvInit (args : list value) (kwargs : list (string * value))
| EvStart (self : nat) (args : list value) (kwargs : list (string * value))
| EvPrint (text : string).

Definition printed_line (ev : event) : option string :=
  match ev with EvPrint s => Some s | _ => None end.

Definition is_start (ev : event) : bool :=
  match ev with EvStart _ _ _ => true | _ => false end.

(** *** The interpreter *)

Section Interpreter.

Variable P : package.

(** The state of the Python process behind the notebook. *)
Record kernel := Kernel {
  modules : gmap string (gmap string value);  (* what [import] can find *)
  globals : gmap string value;                (* the notebook's namespace *)
  heap : list (sim P);                        (* the [Simulation] instances *)
  trace : list event
}.

Definition stdout (k : kernel) : list string := omap printed_line (trace k).

Definition set_global (x : string) (v : value) (k : kernel) : kernel :=
  Kernel (modules k) (<[x := v]> (globals k)) (heap k) (trace k).

Definition alloc (o : sim P) (k : kernel) : kernel :=
  Kernel (modules k) (globals k) (heap k ++ [o]) (trace k).

Definition store (a : nat) (o : sim P) (k : kernel) : kernel :=
  Kernel (modules k) (globals k) (<[a := o]> (heap k)) (trace k).

Definition emit (evs : list event) (k : kernel) : kernel :=
  Kernel (modules k) (globals k) (heap k) (trace k ++ evs).

(** Computations of the interpreter: they read and change the kernel, and
    return a value or raise. *)
Definition M (A : Type) : Type := kernel -> kernel * outcome A.

Definition ret {A} (a : A) : M A := fun k => (k, Returned a).
Definition raise {A} (e : exn) : M A := fun k => (k, Raised e).
Definition bind {A B} (m : M A) (f : A -> M B) : M B :=
  fun k => match m k with
           | (k', Returned a) => f a k'
           | (k', Raised e) => (k', Raised e)
           end.

Notation "'do' x <~ m 'in' f" := (bind m (fun x => f))
  (at level 10, x name, m at level 100, f at level 200, only parsing).

Definition lookup_name (x : string) : M value :=
  fun k => match globals k !! x with
           | Some v => (k, Returned v)
           | None => (k, Raised (NameError x))
           end.

(** [start] is the one attribute of an instance the interface names. *)
Definition getattr (v : value) (a : string) : M value :=
  match v with
  | VRef self => if String.eqb a "start" then ret (VStart self) else raise (AttributeError a)
  | _ => raise (AttributeError a)
  end.

(** Calling a value: the class constructs an instance and puts it on the
    heap; a bound [start] runs on its instance. *)
Definition call (f : value) (args : list value) (kwargs : list (string * value)) : M value :=
  match f with
  | VClass => fun k =>
      let k1 := emit [EvInit args kwargs] k in
      match sim_init P args kwargs with
      | (out, Returned o) =>
          let k2 := emit (map EvPrint out) k1 in
          (alloc o k2, Returned (VRef (length (heap k2))))
      | (out, Raised e) => (emit (map EvPrint out) k1, Raised e)
      end
  | VStart self => fun k =>
      match heap k !! self with
      | Some o =>
          let k1 := emit [EvStart self args kwargs] k in
          match sim_start P o args kwargs with
          | (out, o', r) => (store self o' (emit (map EvPrint out) k1), r)
          end
      | None => (k, Raised (TypeError "stale instance"))  (* instances are never freed *)
      end
  | _ => raise (TypeError "object is not callable")
  end.

Fixpoint eval (e : expr) : M value :=
  match e with
  | EInt n => ret (VInt n)
  | EName x => lookup_name x
  | EAttr e' a => do v <~ eval e' in getattr v a
  | ECall f args kwargs =>
      do fv <~ eval f in
      do vs <~ (fix eval_args (l : list expr) : M (list value) :=
               match l with
               | [] => ret []
               | a :: l' => do v <~ eval a in do vs <~ eval_args l' in ret (v :: vs)
               end) args in
      do kvs <~ (fix eval_kwargs (l : list (string * expr)) : M (list (string * value)) :=
                match l with
                | [] => ret []
                | (x, a) :: l' => do v <~ eval a in do kvs <~ eval_kwargs l' in ret ((x, v) :: kvs)
                end) kwargs in
      call fv vs kvs
  end.

(** [from m import n].  A module that is found and holds the name binds
    it, which is all the cell's run needs.  Of an import that fails the
    model keeps the kind of exception only: what Python runs on the way (a
    parent package's [__init__], the module body) is not modelled. *)
Definition import_from (m n : string) : M unit :=
  fun k => match modules k !! m with
           | None => (k, Raised (ModuleNotFoundError m))
           | Some ns =>
               match ns !! n with
               | None => (k, Raised (ImportError n m))
               | Some v => (set_global n v k, Returned tt)
               end
           end.

Fixpoint exec (s : stmt) : M unit :=
  match s with
  | SImportFrom m n => import_from m n
  | SAssign x e => do v <~ eval e in (fun k => (set_global x v k, Returned tt))
  | SExpr e => do _ <~ eval e in ret tt
  | STry body handler =>
      let block := fix block (l : list stmt) : M unit :=
                     match l with
                     | [] => ret tt
                     | s' :: l' => do _ <~ exec s' in block l'
                     end in
      fun k => match block body k with
               | (k', Raised _) => block handler k'
               | r => r
               end
  end.

(** A sequence of statements stops at the first that raises. *)
Fixpoint exec_block (l : list stmt) : M unit :=
  match l with
  | [] => ret tt
  | s :: l' => do _ <~ exec s in exec_block l'
  end.

(** Running a cell: its statements, in order, from the kernel as it is. *)
Definition run (p : list line) : M unit := exec_block (statements p).

(** [pygmodw25.sims] can be imported and its [Simulation] is the class. *)
Definition sims_installed (k : kernel) : Prop :=
  modules k !! "pygmodw25.sims" ≫= (.!! "Simulation") = Some VClass.

End Interpreter.

Arguments Kernel {P} modules globals heap trace.
Arguments modules {P} k.
Arguments globals {P} k.
Arguments heap {P} k.
Arguments trace {P} k.
Arguments stdout {P} k.
Arguments set_global {P} x v k.
Arguments alloc {P} o k.
Arguments store {P} a o k.
Arguments emit {P} evs k.
Arguments sims_installed {P} k.

(** A kernel that has run nothing yet and finds the class in module [m]. *)
Definition fresh_kernel {P} (m : string) : kernel P :=
  Kernel {[ m := {[ "Simulation" := VClass ]} ]} ∅ [] [].

(** How a statement's outcome reads once its value is dropped. *)
Definition discard {A} (r : outcome A) : outcome unit :=
  match r with
  | Returned _ => Returned tt
  | Raised e => Raised e
  end.

End Py.

(** ** The package [pygmodw25.sims] *)

Module Sims.
Import Py.

(** Python's rule for binding the arguments of a call to parameters that
    may be passed by position or by name and have no default. *)
Definition lookup_kw (x : string) (kwargs : list (string * value)) : option value :=
  snd <$> List.find (fun kv => String.eqb (fst kv) x) kwargs.

Definition remove_kw (x : string) (kwargs : list (string * value)) : list (string * value) :=
  List.filter (fun kv => negb (String.eqb (fst kv) x)) kwargs.

Fixpoint bind_params (params : list string) (args : list value)
    (kwargs : list (string * value)) : outcome (list value) :=
  match params, args with
  | [], [] =>
      match kwargs with
      | [] => Returned []
      | (x, _) :: _ => Raised (TypeError ("got an unexpected keyword argument '" +:+ x +:+ "'"))
      end
  | [], _ :: _ => Raised (TypeError "too many positional arguments")
  | p :: ps, a :: args' =>
      match lookup_kw p kwargs with
      | Some _ => Raised (TypeError ("got multiple values for argument '" +:+ p +:+ "'"))
      | None =>
          match bind_params ps args' kwargs with
          | Returned vs => Returned (a :: vs)
          | Raised e => Raised e
          end
      end
  | p :: ps, [] =>
      match lookup_kw p kwargs with
      | Some v =>
          match bind_params ps [] (remove_kw p kwargs) with
          | Returned vs => Returned (v :: vs)
          | Raised e => Raised e
          end
      | None => Raised (TypeError ("missing required argument '" +:+ p +:+ "'"))
      end
  end.

(** Modelled from the spec: the class [Simulation] of [pygmodw25.sims],
    whose code the notebook imports and does not contain.  The spec gives
    it a constructor taking two named integer parameters, the agent count
    and the timestep count, with no constraint or validation on either; the
    notebook names them [N] and [T].  An instance is the configuration
    pair. *)
Record Simulation := { N : value; T : value }.

(** Modelled from the spec: the constructor of [Simulation], whose code is
    not in the notebook.  It binds [N] and [T] from the arguments of the
    call and keeps them; it checks neither and prints nothing. *)
Definition Simulation_init (args : list value) (kwargs : list (string * value))
    : list string * outcome Simulation :=
  match bind_params ["N"; "T"] args kwargs with
  | Returned [n; t] => ([], Returned {| N := n; T := t |})
  | Returned _ => ([], Raised (TypeError "Simulation() takes two arguments"))
  | Raised e => ([], Raised e)
  end.

(** The three lifecycle messages, in the order the spec lists them. *)
Definition lifecycle : list string := [
  "Running simulation start method!";
  "Starting main simulation loop!";
  "Bye bye!"
].

(** Modelled from the spec: the method [start] of [Simulation], whose code
    is not in the notebook.  The spec gives it no argument and no return
    value: it prints the lifecycle messages, runs the simulation to
    completion and terminates the host process, which Python does by
    raising [SystemExit].  The graphical window is not modelled. *)
Definition Simulation_start (self : Simulation) (args : list value)
    (kwargs : list (string * value)) : list string * Simulation * outcome value :=
  match args, kwargs with
  | [], [] => (lifecycle, self, Raised SystemExit)
  | _, _ => ([], self, Raised (TypeError "start() takes no arguments"))
  end.

Definition pygmodw25_sims : package :=
  Package Simulation Simulation_init Simulation_start.

(** A kernel in which the package has been installed and nothing has run. *)
Definition installed_kernel : kernel pygmodw25_sims := fresh_kernel "pygmodw25.sims".

End Sims.

(** ** Other packages, to exercise the interpreter *)

Module Doubles.
Import Py.

Definition ValueError : exn := Exn "ValueError" "N must be positive".

(** A package whose constructor refuses every configuration. *)
Definition refusing : package :=
  Package unit
    (fun _ _ => (["checking"], Raised ValueError))
    (fun o _ _ => ([], o, Returned VNone)).

(** A package whose [start] comes back, with a value. *)
Definition returning : package :=
  Package unit
    (fun _ _ => (["made"], Returned tt))
    (fun o _ _ => (["ran"], o, Returned (VInt 7))).

End Doubles.

(** ** A kernel with another namespace *)

(** The kernel [k] with the namespace [g] in place of its own. *)
Definition with_globals {P} (g : gmap string Py.value) (k : Py.kernel P) : Py.kernel P :=
  Py.Kernel (Py.modules k) g (Py.heap k) (Py.trace k).

(** ** The smoke test against any package *)

Import Py.

(** The keyword arguments the cell passes to the constructor. *)
Definition init_kwargs (N T : Z) : list (string * value) :=
  [("N", VInt N); ("T", VInt T)].

(** The two calls of the cell are where the package can raise: the
    constructor, or [start] on the instance the constructor returned. *)
Inductive boundary_raises (P : package) (N T : Z) (e : exn) : Prop :=
| init_raises out :
    sim_init P [] (init_kwargs N T) = (out, Raised e) ->
    boundary_raises P N T e
| start_raises out o out' o' :
    sim_init P [] (init_kwargs N T) = (out, Returned o) ->
    sim_start P o [] [] = (out', o', Raised e) ->
    boundary_raises P N T e.

(** The kernel after the import and the call of the constructor, which
    printed [out]. *)
Definition constructing {P} (N T : Z) (out : list string) (k : kernel P) : kernel P :=
  emit (map EvPrint out)
    (emit [EvInit [] (init_kwargs N T)] (set_global "Simulation" VClass k)).

(** The kernel when [start] is entered on the new instance [o]. *)
Definition starting {P} (N T : Z) (out : list string) (o : sim P) (k : kernel P) : kernel P :=
  emit [EvStart (length (heap k)) [] []]
    (set_global "test_simulation" (VRef (length (heap k)))
       (alloc o (constructing N T out k))).

Section SmokeTest.

Variable P : package.

(** A [try] runs its body as a block and, if the body raises, its handler. *)
Lemma exec_try (body handler : list stmt) (k : kernel P) :
  exec P (STry body handler) k
  = match exec_block P body k with
    | (k', Raised _) => exec_block P handler k'
    | r => r
    end.
Proof. reflexivity. Qed.

Lemma import_Simulation (k : kernel P) :
  sims_installed k ->
  exec P (SImportFrom "pygmodw25.sims" "Simulation") k
  = (set_global "Simulation" VClass k, Returned tt).
Proof.
  unfold sims_installed. cbn [exec]. unfold import_from.
  destruct (modules k !! "pygmodw25.sims") as [ns|]; cbn; [|discriminate].
  intros ->. reflexivity.
Qed.

Lemma construct_Simulation (N T : Z) (k : kernel P) :
  globals k !! "Simulation" = Some VClass ->
  eval P (ECall (EName "Simulation") [] [("N", EInt N); ("T", EInt T)]) k
  = match sim_init P [] (init_kwargs N T) with
    | (out, Returned o) =>
        (alloc o (emit (map EvPrint out) (emit [EvInit [] (init_kwargs N T)] k)),
         Returned (VRef (length (heap k))))
    | (out, Raised e) =>
        (emit (map EvPrint out) (emit [EvInit [] (init_kwargs N T)] k), Raised e)
    end.
Proof.
  intros Hcls. cbn [eval]. unfold bind at 1. unfold lookup_name. rewrite Hcls.
  cbn. fold (init_kwargs N T).
  destruct (sim_init P [] (init_kwargs N T)) as [out [o|e]]; reflexivity.
Qed.

Lemma call_start (a : nat) (o : sim P) (k : kernel P) :
  globals k !! "test_simulation" = Some (VRef a) ->
  heap k !! a = Some o ->
  eval P (ECall (EAttr (EName "test_simulation") "start") [] []) k
  = match sim_start P o [] [] with
    | (out, o', r) =>
        (store a o' (emit (map EvPrint out) (emit [EvStart a [] []] k)), r)
    end.
Proof.
  intros Hname Hobj. cbn [eval]. unfold bind at 1. unfold bind at 1.
  unfold lookup_name. rewrite Hname. cbn. rewrite Hobj. reflexivity.
Qed.

(** The whole run of the cell, for any package, any two literals and any
    kernel that can import the class. *)
Lemma run_smoke_test_with (N T : Z) (k : kernel P) :
  sims_installed k ->
  run P (smoke_test_with N T) k
  = match sim_init P [] (init_kwargs N T) with
    | (out, Raised e) => (constructing N T out k, Raised e)
    | (out, Returned o) =>
        match sim_start P o [] [] with
        | (out', o', r) =>
            (store (length (heap k)) o'
               (emit (map EvPrint out') (starting N T out o k)),
             discard r)
        end
    end.
Proof.
  intros Hinst. unfold run. cbn [statements smoke_test_with omap list_omap].
  cbn [exec_block]. unfold bind at 1. rewrite (import_Simulation _ Hinst).
  unfold bind at 1. cbn [exec]. unfold bind at 1.
  rewrite construct_Simulation by apply lookup_insert_eq.
  unfold constructing, starting.
  destruct (sim_init P [] (init_kwargs N T)) as [out [o|e]]; [|reflexivity].
  unfold bind at 1. cbn [exec]. unfold bind at 1.
  rewrite (call_start (length (heap k)) o).
  - destruct (sim_start P o [] []) as [[out' o'] [v|e]]; reflexivity.
  - apply lookup_insert_eq.
  - cbn. apply list_lookup_middle. reflexivity.
Qed.

(** What each step leaves on the trace. *)
Lemma trace_constructing (N T : Z) (out : list string) (k : kernel P) :
  trace (constructing N T out k)
  = trace k ++ EvInit [] (init_kwargs N T) :: map EvPrint out.
Proof. cbn. rewrite <- app_assoc. reflexivity. Qed.

Lemma trace_starting (N T : Z) (out : list string) (o : sim P) (k : kernel P) :
  trace (starting N T out o k)
  = trace k ++ EvInit [] (init_kwargs N T) :: map EvPrint out
            ++ [EvStart (length (heap k)) [] []].
Proof. cbn. rewrite <- !app_assoc. reflexivity. Qed.

Lemma stdout_emit (evs : list event) (k : kernel P) :
  stdout (emit evs k) = stdout k ++ omap printed_line evs.
Proof. unfold stdout. cbn. apply omap_app. Qed.

Lemma printed_lines (out : list string) : omap printed_line (map EvPrint out) = out.
Proof. induction out as [|s out IH]; cbn; [reflexivity | now rewrite IH]. Qed.

(** The first two statements: the import and the construction. *)
Lemma exec_construction (N T : Z) (k : kernel P) :
  sims_installed k ->
  exec_block P (take 2 (statements (smoke_test_with N T))) k
  = match sim_init P [] (init_kwargs N T) with
    | (out, Raised e) => (constructing N T out k, Raised e)
    | (out, Returned o) =>
        (set_global "test_simulation" (VRef (length (heap k)))
           (alloc o (constructing N T out k)), Returned tt)
    end.
Proof.
  intros Hinst. cbn [statements smoke_test_with omap list_omap take].
  cbn [exec_block]. unfold bind at 1. rewrite (import_Simulation _ Hinst).
  unfold bind at 1. cbn [exec]. unfold bind at 1.
  rewrite construct_Simulation by apply lookup_insert_eq.
  unfold constructing.
  destruct (sim_init P [] (init_kwargs N T)) as [out [o|e]]; reflexivity.
Qed.

(** The events a run adds to the trace. *)
Lemma trace_run_smoke_test (N T : Z) (k : kernel P) :
  sims_installed k ->
  trace (fst (run P (smoke_test_with N T) k))
  = trace k ++
    match sim_init P [] (init_kwargs N T) with
    | (out, Raised _) => EvInit [] (init_kwargs N T) :: map EvPrint out
    | (out, Returned o) =>
        EvInit [] (init_kwargs N T) :: map EvPrint out
        ++ EvStart (length (heap k)) [] [] :: map EvPrint (fst (fst (sim_start P o [] [])))
    end.
Proof.
  intros Hinst. rewrite (run_smoke_test_with _ _ _ Hinst).
  destruct (sim_init P [] (init_kwargs N T)) as [out [o|e]].
  - destruct (sim_start P o [] []) as [[out' o'] r]. cbn [fst].
    change (trace (emit (map EvPrint out') (starting N T out o k))
            = trace k ++ EvInit [] (init_kwargs N T) :: map EvPrint out
                ++ EvStart (length (heap k)) [] [] :: map EvPrint out').
    cbn [emit trace]. rewrite trace_starting, <- app_assoc. cbn.
    rewrite <- app_assoc. reflexivity.
  - cbn [fst]. apply trace_constructing.
Qed.

(** Printed lines are never calls, so a [start] event is found at one place
    only in the events of a run. *)
Lemma split_at_start (pre post l1 l2 : list event) (x y : event) :
  is_start x = true -> is_start y = true ->
  forallb (fun ev => negb (is_start ev)) l1 = true ->
  forallb (fun ev => negb (is_start ev)) l2 = true ->
  pre ++ x :: post = l1 ++ y :: l2 ->
  pre = l1 /\ x = y /\ post = l2.
Proof.
  intros Hx Hy. revert l1. induction pre as [|p pre IH]; intros [|a l1] H1 H2 Heq; cbn in *.
  - injection Heq as -> ->. auto.
  - injection Heq as -> ->. rewrite Hx in H1. discriminate.
  - injection Heq as -> Heq. exfalso.
    rewrite <- Heq, forallb_app in H2. cbn in H2. rewrite Hx in H2. cbn in H2.
    rewrite andb_false_r in H2. discriminate.
  - injection Heq as -> Heq. apply andb_prop in H1 as [_ H1].
    destruct (IH l1 H1 H2 Heq) as (-> & -> & ->). auto.
Qed.

Lemma prints_are_not_starts (out : list string) :
  forallb (fun ev => negb (is_start ev)) (map EvPrint out) = true.
Proof. induction out; cbn; auto. Qed.

Lemma init_is_not_start (N T : Z) (out : list string) :
  forallb (fun ev => negb (is_start ev)) (EvInit [] (init_kwargs N T) :: map EvPrint out) = true.
Proof. cbn. apply prints_are_not_starts. Qed.

(** C3: the cell calls the constructor with the two keyword arguments [N]
    and [T], both integer literals, and nothing else; it calls [start] with
    no argument at all, as a statement of its own whose value is bound to no
    name.  Whatever the package is, a run makes exactly these calls: the
    events it adds are the constructor call with [N=15, T=150] and no
    positional argument, what the constructor printed and, if the
    constructor returned an instance, the call of [start] on it with no
    argument, followed by what [start] printed. *)
Theorem api_boundary_shape (k : kernel P) :
  sims_installed k ->
  calls_of smoke_test
  = [ CallSite "Simulation" [] [("N", EInt 15); ("T", EInt 150)];
      CallSite "test_simulation.start" [] [] ]
  /\ last (statements smoke_test)
     = Some (SExpr (ECall (EAttr (EName "test_simulation") "start") [] []))
  /\ flat_map targets_of_stmt (statements smoke_test) = ["Simulation"; "test_simulation"]
  /\ trace (fst (run P smoke_test k))
     = trace k ++
       match sim_init P [] [("N", VInt 15); ("T", VInt 150)] with
       | (out, Raised _) =>
           EvInit [] [("N", VInt 15); ("T", VInt 150)] :: map EvPrint out
       | (out, Returned o) =>
           EvInit [] [("N", VInt 15); ("T", VInt 150)] :: map EvPrint out
           ++ EvStart (length (heap k)) [] []
              :: map EvPrint (fst (fst (sim_start P o [] [])))
       end.
Proof.
  intros Hinst. split; [reflexivity|]. split; [reflexivity|]. split; [reflexivity|].
  exact (trace_run_smoke_test 15 150 k Hinst).
Qed.

(** C5: the cell constructs first and starts second.  In the events of a
    run, whatever the package, a call of [start] is found only after the
    call of the constructor and everything the constructor printed, only if
    the constructor returned an instance, and it is the call on that
    instance. *)
Theorem start_only_after_construction (k : kernel P)
    (pre post : list event) (self : nat)
    (args : list value) (kwargs : list (string * value)) :
  sims_installed k ->
  trace (fst (run P smoke_test k)) = trace k ++ pre ++ EvStart self args kwargs :: post ->
  exists out o,
    sim_init P [] (init_kwargs 15 150) = (out, Returned o)
    /\ pre = EvInit [] (init_kwargs 15 150) :: map EvPrint out
    /\ self = length (heap k) /\ args = [] /\ kwargs = [].
Proof.
  intros Hinst. unfold smoke_test. rewrite (trace_run_smoke_test _ _ _ Hinst).
  intros Heq. apply app_inv_head in Heq.
  destruct (sim_init P [] (init_kwargs 15 150)) as [out [o|e]].
  - symmetry in Heq.
    apply (split_at_start pre post (EvInit [] (init_kwargs 15 150) :: map EvPrint out)) in Heq
      as (-> & Hev & _); try reflexivity.
    + injection Hev as -> -> ->. eauto 10.
    + apply init_is_not_start.
    + apply prints_are_not_starts.
  - exfalso. pose proof (init_is_not_start 15 150 out) as Hno.
    rewrite Heq, forallb_app in Hno. cbn in Hno.
    rewrite andb_false_r in Hno. discriminate.
Qed.

(** C6: the cell has no [try] around either call, so an exception raised by
    the constructor, or by [start] on the constructed instance, is the
    outcome of the cell, whatever the exception and whatever the package. *)
Theorem exceptions_propagate (k : kernel P) (e : exn) :
  sims_installed k ->
  boundary_raises P 15 150 e ->
  existsb handles_errors (statements smoke_test) = false
  /\ snd (run P smoke_test k) = Raised e.
Proof.
  intros Hinst Hraise. split; [reflexivity|].
  unfold smoke_test. rewrite (run_smoke_test_with _ _ _ Hinst).
  destruct Hraise as [out Hinit | out o out' o' Hinit Hstart].
  - rewrite Hinit. reflexivity.
  - rewrite Hinit, Hstart. reflexivity.
Qed.

End SmokeTest.

(** ** The smoke test against the modelled package *)

Section Modelled.

Import Sims.

Variable k : kernel pygmodw25_sims.
Hypothesis Hinst : sims_installed k.

Lemma modelled_init (n t : Z) :
  Simulation_init [] (init_kwargs n t) = ([], Returned {| N := VInt n; T := VInt t |}).
Proof. reflexivity. Qed.

Lemma modelled_start (o : Simulation) :
  Simulation_start o [] [] = (lifecycle, o, Raised SystemExit).
Proof. reflexivity. Qed.

Lemma run_modelled (n t : Z) :
  run pygmodw25_sims (smoke_test_with n t) k
  = (@store pygmodw25_sims (length (heap k)) {| N := VInt n; T := VInt t |}
       (emit (map EvPrint lifecycle)
          (@starting pygmodw25_sims n t [] {| N := VInt n; T := VInt t |} k)),
     Raised SystemExit).
Proof. rewrite (run_smoke_test_with _ _ _ _ Hinst). reflexivity. Qed.

Lemma trace_modelled (n t : Z) :
  trace (fst (run pygmodw25_sims (smoke_test_with n t) k))
  = trace k ++ [ EvInit [] (init_kwargs n t); EvStart (length (heap k)) [] [];
                 EvPrint "Running simulation start method!";
                 EvPrint "Starting main simulation loop!";
                 EvPrint "Bye bye!" ].
Proof. rewrite (trace_run_smoke_test _ _ _ _ Hinst). reflexivity. Qed.

Lemma stdout_modelled (n t : Z) :
  stdout (fst (run pygmodw25_sims (smoke_test_with n t) k))
  = stdout k ++ [ "Running simulation start method!";
                  "Starting main simulation loop!";
                  "Bye bye!" ].
Proof. unfold stdout. rewrite trace_modelled, omap_app. reflexivity. Qed.

(** C1: constructing [Simulation(N=15, T=150)] and calling [start] writes
    on standard output exactly the three lifecycle lines, in their order,
    and they are all written when the run ends in the termination of the
    process.  They are the lines the notebook recorded for the cell. *)
Theorem smoke_test_prints_lifecycle :
  (exists k',
     run pygmodw25_sims smoke_test k = (k', Raised SystemExit)
     /\ stdout k' = stdout k ++ [ "Running simulation start method!";
                                  "Starting main simulation loop!";
                                  "Bye bye!" ])
  /\ Nb.stream_text "stdout" Nb.cell_ed4fe3ed
     = map ln [ "Running simulation start method!";
                "Starting main simulation loop!";
                "Bye bye!" ].
Proof.
  split; [|reflexivity].
  eexists. split; [apply run_modelled|].
  pose proof (stdout_modelled 15 150) as Hout.
  unfold smoke_test in Hout. rewrite run_modelled in Hout. exact Hout.
Qed.

(** C2: the call of [start] in the smoke test does not return: the run of
    the cell ends with [SystemExit] raised, which is the error the notebook
    recorded for the cell. *)
Theorem start_terminates_process :
  snd (run pygmodw25_sims smoke_test k) = Raised SystemExit
  /\ (forall u, snd (run pygmodw25_sims smoke_test k) <> Returned u)
  /\ Nb.errors Nb.cell_ed4fe3ed = [(ename SystemExit, evalue SystemExit)]
  /\ ename SystemExit = "SystemExit".
Proof.
  unfold smoke_test. rewrite run_modelled. cbn [snd].
  split; [reflexivity|]. split; [discriminate|]. split; reflexivity.
Qed.

(** C4: whatever the two integers, nothing checks them.  The constructor
    takes them as they are: it raises nothing and prints nothing, and the
    instance holds exactly [N] and [T].  The cell hands them to the
    constructor unchanged, the call being the only event of the
    construction, and its construction statement returns with the instance
    on the heap. *)
Theorem any_configuration_is_accepted (n t : Z) :
  Simulation_init [] (init_kwargs n t)
  = ([], Returned {| N := VInt n; T := VInt t |})
  /\ exists k',
       exec_block pygmodw25_sims (take 2 (statements (smoke_test_with n t))) k
       = (k', Returned tt)
       /\ trace k' = trace k ++ [ EvInit [] [("N", VInt n); ("T", VInt t)] ]
       /\ heap k' = heap k ++ [ {| N := VInt n; T := VInt t |} ]
       /\ globals k' !! "test_simulation" = Some (VRef (length (heap k))).
Proof.
  split; [reflexivity|].
  rewrite (exec_construction _ _ _ _ Hinst). cbn [sim_init pygmodw25_sims].
  rewrite modelled_init. eexists. split; [reflexivity|].
  split; [cbn; apply app_nil_r|]. split; [reflexivity|]. apply lookup_insert_eq.
Qed.

(** C7: nothing ends the run early.  No statement of the cell before the
    last one raises; the run ends in [SystemExit] with the three lifecycle
    lines as the last events of its trace, [Bye bye!] the very last; and in
    the recorded outputs the one error comes after the stream holding the
    three lines. *)
Theorem termination_only_at_end :
  (forall n, (n < length (statements smoke_test))%nat ->
     snd (exec_block pygmodw25_sims (take n (statements smoke_test)) k) = Returned tt)
  /\ (exists k',
        run pygmodw25_sims smoke_test k = (k', Raised SystemExit)
        /\ trace k' = trace k ++ [ EvInit [] (init_kwargs 15 150);
                                   EvStart (length (heap k)) [] [];
                                   EvPrint "Running simulation start method!";
                                   EvPrint "Starting main simulation loop!";
                                   EvPrint "Bye bye!" ])
  /\ map Nb.is_error (Nb.outputs Nb.cell_ed4fe3ed) = [false; true; false]
  /\ Nb.outputs Nb.cell_ed4fe3ed !! 0%nat
     = Some (Nb.stream "stdout" (map ln [ "Running simulation start method!";
                                          "Starting main simulation loop!";
                                          "Bye bye!" ])).
Proof.
  repeat split.
  - intros [|[|[|n]]] Hn; [reflexivity| | |cbn in Hn; lia].
    + cbn [statements smoke_test smoke_test_with omap list_omap take exec_block].
      unfold bind at 1. rewrite (import_Simulation _ _ Hinst). reflexivity.
    + unfold smoke_test. rewrite (exec_construction _ _ _ _ Hinst). reflexivity.
  - eexists. split; [apply run_modelled|].
    pose proof (trace_modelled 15 150) as Htr.
    unfold smoke_test in Htr. rewrite run_modelled in Htr. exact Htr.
Qed.

End Modelled.

(** ** The text of the notebook *)

(** The syntax tree of the cell prints back to the text the notebook
    stores for it. *)
Lemma smoke_test_renders : render smoke_test = Nb.source Nb.cell_ed4fe3ed.
Proof. vm_compute. reflexivity. Qed.

(** C9: the cell imports [Simulation] from the module [pygmodw25.sims],
    while the narration above it names the installed package [pygmodw23]
    and never [pygmodw25]; the cell in turn never names [pygmodw23].  The
    package the import needs and the package the narration names differ. *)
Theorem import_differs_from_narration :
  imports_of smoke_test = [("pygmodw25.sims", "Simulation")]
  /\ Nb.contains "the installed python package `pygmodw23`" (Nb.text Nb.cell_efdb2980) = true
  /\ Nb.contains "pygmodw25" (Nb.text Nb.cell_efdb2980) = false
  /\ Nb.contains "pygmodw23" (Nb.text Nb.cell_ed4fe3ed) = false
  /\ top_package "pygmodw25.sims" = "pygmodw25"
  /\ top_package "pygmodw25.sims" <> "pygmodw23".
Proof.
  repeat split; try reflexivity.
  cbn. discriminate.
Qed.

(** ** The theorems at work *)

Lemma smoke_test_prints_lifecycle_witness :
  sims_installed Sims.installed_kernel
  /\ stdout (fst (run Sims.pygmodw25_sims smoke_test Sims.installed_kernel))
     = [ "Running simulation start method!";
         "Starting main simulation loop!";
         "Bye bye!" ].
Proof.
  split; [reflexivity|].
  destruct (smoke_test_prints_lifecycle Sims.installed_kernel eq_refl)
    as [(k' & Hrun & Hout) _].
  rewrite Hrun. exact Hout.
Defined.

Lemma start_terminates_process_witness :
  sims_installed Sims.installed_kernel
  /\ snd (run Sims.pygmodw25_sims smoke_test Sims.installed_kernel) = Raised SystemExit.
Proof.
  split; [reflexivity|].
  apply (start_terminates_process Sims.installed_kernel). reflexivity.
Defined.

Lemma api_boundary_shape_witness :
  sims_installed (@fresh_kernel Doubles.returning "pygmodw25.sims")
  /\ trace (fst (run Doubles.returning smoke_test (fresh_kernel "pygmodw25.sims")))
     = [ EvInit [] [("N", VInt 15); ("T", VInt 150)]; EvPrint "made";
         EvStart 0 [] []; EvPrint "ran" ].
Proof.
  split; [reflexivity|].
  destruct (api_boundary_shape Doubles.returning (fresh_kernel "pygmodw25.sims") eq_refl)
    as (_ & _ & _ & Htrace).
  rewrite Htrace. reflexivity.
Defined.

Lemma any_configuration_is_accepted_witness :
  sims_installed Sims.installed_kernel
  /\ exists k',
       exec_block Sims.pygmodw25_sims (take 2 (statements (smoke_test_with (-3) 0)))
         Sims.installed_kernel = (k', Returned tt)
       /\ trace k' = [ EvInit [] [("N", VInt (-3)); ("T", VInt 0)] ]
       /\ heap k' = [ {| Sims.N := VInt (-3); Sims.T := VInt 0 |} ]
       /\ globals k' !! "test_simulation" = Some (VRef 0).
Proof.
  split; [reflexivity|].
  apply (any_configuration_is_accepted Sims.installed_kernel eq_refl (-3) 0).
Defined.

Lemma start_only_after_construction_witness :
  sims_installed Sims.installed_kernel
  /\ trace (fst (run Sims.pygmodw25_sims smoke_test Sims.installed_kernel))
     = trace Sims.installed_kernel
       ++ [EvInit [] (init_kwargs 15 150)]
       ++ EvStart 0 [] [] :: map EvPrint Sims.lifecycle
  /\ exists out o,
       Sims.Simulation_init [] (init_kwargs 15 150) = (out, Returned o)
       /\ [EvInit [] (init_kwargs 15 150)] = EvInit [] (init_kwargs 15 150) :: map EvPrint out
       /\ 0%nat = length (heap Sims.installed_kernel)
       /\ @nil value = [] /\ @nil (string * value) = [].
Proof.
  split; [reflexivity|]. split; [reflexivity|].
  apply (start_only_after_construction Sims.pygmodw25_sims Sims.installed_kernel
           [EvInit [] (init_kwargs 15 150)] (map EvPrint Sims.lifecycle) 0 [] []);
    reflexivity.
Defined.

Lemma exceptions_propagate_witness :
  sims_installed (@fresh_kernel Doubles.refusing "pygmodw25.sims")
  /\ boundary_raises Doubles.refusing 15 150 Doubles.ValueError
  /\ snd (run Doubles.refusing smoke_test (fresh_kernel "pygmodw25.sims"))
     = Raised Doubles.ValueError.
Proof.
  assert (Hraise : boundary_raises Doubles.refusing 15 150 Doubles.ValueError).
  { eapply init_raises. reflexivity. }
  split; [reflexivity|]. split; [exact Hraise|].
  apply (exceptions_propagate Doubles.refusing (fresh_kernel "pygmodw25.sims")
           Doubles.ValueError); [reflexivity | exact Hraise].
Defined.

Lemma termination_only_at_end_witness :
  sims_installed Sims.installed_kernel
  /\ forall n, (n < 3)%nat ->
       snd (exec_block Sims.pygmodw25_sims (take n (statements smoke_test))
              Sims.installed_kernel) = Returned tt.
Proof.
  split; [reflexivity|].
  apply (termination_only_at_end Sims.installed_kernel). reflexivity.
Defined.

(** ** The interpreter on other programs and packages *)

(** A [try] around the cell would keep the termination in. *)
Example try_swallows_SystemExit :
  snd (run Sims.pygmodw25_sims [Stmt (STry (statements smoke_test) [])] Sims.installed_kernel)
  = Returned tt.
Proof. vm_compute. reflexivity. Qed.

(** Calling [start] with no instance constructed is a [NameError]. *)
Example start_without_construction :
  run Sims.pygmodw25_sims
    [Stmt (SExpr (ECall (EAttr (EName "test_simulation") "start") [] []))]
    Sims.installed_kernel
  = (Sims.installed_kernel, Raised (NameError "test_simulation")).
Proof. reflexivity. Qed.

(** With a [start] that comes back, the cell returns, with the output of
    both calls. *)
Example returning_start_is_discarded :
  snd (run Doubles.returning smoke_test (fresh_kernel "pygmodw25.sims")) = Returned tt
  /\ stdout (fst (run Doubles.returning smoke_test (fresh_kernel "pygmodw25.sims")))
     = ["made"; "ran"].
Proof. split; vm_compute; reflexivity. Qed.

(** With a constructor that refuses, [start] is never called. *)
Example refusing_constructor_stops_the_cell :
  trace (fst (run Doubles.refusing smoke_test (fresh_kernel "pygmodw25.sims")))
  = [EvInit [] (init_kwargs 15 150); EvPrint "checking"].
Proof. vm_compute. reflexivity. Qed.

(** The modelled constructor binds its parameters as Python does. *)
Example init_by_position :
  Sims.Simulation_init [VInt 15; VInt 150] []
  = ([], Returned {| Sims.N := VInt 15; Sims.T := VInt 150 |}).
Proof. reflexivity. Qed.

Example init_missing_T :
  snd (Sims.Simulation_init [] [("N", VInt 15)])
  = Raised (TypeError "missing required argument 'T'").
Proof. reflexivity. Qed.

Example init_unexpected_keyword :
  snd (Sims.Simulation_init [] [("N", VInt 15); ("T", VInt 150); ("width", VInt 500)])
  = Raised (TypeError "got an unexpected keyword argument 'width'").
Proof. reflexivity. Qed.

Example start_takes_no_argument :
  snd (Sims.Simulation_start {| Sims.N := VInt 15; Sims.T := VInt 150 |} [VInt 1] [])
  = Raised (TypeError "start() takes no arguments").
Proof. reflexivity. Qed.

(** ** The cell and the package's replies *)

Section AnyKernel.

Variable P : package.

(** The heap a run leaves: the old instances, and the new one as [start]
    left it. *)
Lemma heap_after_start (o o' : sim P) (k : kernel P) :
  <[length (heap k) := o']> (heap k ++ [o]) = heap k ++ [o'].
Proof.
  rewrite insert_app_r_alt by lia. rewrite Nat.sub_diag. reflexivity.
Qed.

(** The kernel a run leaves when the constructor returns, field by field. *)
Lemma run_constructed (k : kernel P)
    (out out' : list string) (o o' : sim P) (r : outcome value) :
  sims_installed k ->
  sim_init P [] (init_kwargs 15 150) = (out, Returned o) ->
  sim_start P o [] [] = (out', o', r) ->
  run P smoke_test k
  = (Kernel (modules k)
       (<["test_simulation" := VRef (length (heap k))]>
          (<["Simulation" := VClass]> (globals k)))
       (heap k ++ [o'])
       (trace k ++ EvInit [] (init_kwargs 15 150) :: map EvPrint out
          ++ EvStart (length (heap k)) [] [] :: map EvPrint out'),
     discard r).
Proof.
  intros Hinst Hinit Hstart.
  unfold smoke_test. rewrite (run_smoke_test_with _ _ _ _ Hinst), Hinit, Hstart.
  unfold store, emit. cbn [modules globals heap trace starting emit set_global alloc].
  f_equal. f_equal.
  - exact (heap_after_start o o' k).
  - rewrite trace_constructing, <- !app_assoc. reflexivity.
Qed.

(** X5: the cell raises nothing of its own.  When the class can be
    imported, an exception that ends the run was raised by the constructor,
    or by [start] on the constructed instance: no [NameError],
    [AttributeError] or [TypeError] comes from the cell's own statements. *)
Theorem only_the_package_raises (k : kernel P) (e : exn) :
  sims_installed k ->
  snd (run P smoke_test k) = Raised e ->
  boundary_raises P 15 150 e.
Proof.
  intros Hinst. unfold smoke_test. rewrite (run_smoke_test_with _ _ _ _ Hinst).
  destruct (sim_init P [] (init_kwargs 15 150)) as [out [o|e0]] eqn:Hinit.
  - destruct (sim_start P o [] []) as [[out' o'] [v|e1]] eqn:Hstart; cbn; [discriminate|].
    intros [= ->]. eapply start_raises; eassumption.
  - cbn. intros [= ->]. eapply init_raises; eassumption.
Qed.

(** X6: [start] runs on the instance the constructor returned.  If the
    constructor returns [o], the run calls [start] on [o] itself, its
    outcome is the outcome of that call with the value dropped, the state
    [start] leaves is the instance [test_simulation] refers to, and the
    output is the constructor's followed by that of [start]. *)
Theorem start_runs_on_constructed_instance (k : kernel P)
    (out out' : list string) (o o' : sim P) (r : outcome value) :
  sims_installed k ->
  sim_init P [] (init_kwargs 15 150) = (out, Returned o) ->
  sim_start P o [] [] = (out', o', r) ->
  snd (run P smoke_test k) = discard r
  /\ heap (fst (run P smoke_test k)) = heap k ++ [o']
  /\ globals (fst (run P smoke_test k)) !! "test_simulation" = Some (VRef (length (heap k)))
  /\ stdout (fst (run P smoke_test k)) = stdout k ++ out ++ out'.
Proof.
  intros Hinst Hinit Hstart. unfold stdout.
  rewrite (run_constructed k out out' o o' r Hinst Hinit Hstart). cbn [fst snd trace heap globals].
  split; [reflexivity|]. split; [reflexivity|].
  split; [apply lookup_insert_eq|].
  rewrite omap_app. cbn. rewrite omap_app. cbn. rewrite !printed_lines. reflexivity.
Qed.

(** X7: a constructor that raises leaves [test_simulation] as it was.  The
    run ends with the constructor's exception after its output, [start] is
    not called, the heap is unchanged and the name [test_simulation] keeps
    whatever an earlier run bound to it. *)
Theorem failed_construction_keeps_old_binding (k : kernel P)
    (out : list string) (e : exn) :
  sims_installed k ->
  sim_init P [] (init_kwargs 15 150) = (out, Raised e) ->
  snd (run P smoke_test k) = Raised e
  /\ trace (fst (run P smoke_test k))
     = trace k ++ EvInit [] (init_kwargs 15 150) :: map EvPrint out
  /\ heap (fst (run P smoke_test k)) = heap k
  /\ globals (fst (run P smoke_test k)) !! "test_simulation"
     = globals k !! "test_simulation".
Proof.
  intros Hinst Hinit.
  unfold smoke_test. rewrite (run_smoke_test_with _ _ _ _ Hinst). rewrite Hinit.
  cbn [fst snd]. split; [reflexivity|]. split; [apply trace_constructing|].
  split; [reflexivity|]. cbn. apply lookup_insert_ne. discriminate.
Qed.

End AnyKernel.

(** ** These theorems at work *)

Lemma only_the_package_raises_witness :
  sims_installed (@fresh_kernel Doubles.refusing "pygmodw25.sims")
  /\ snd (run Doubles.refusing smoke_test (fresh_kernel "pygmodw25.sims"))
     = Raised Doubles.ValueError
  /\ boundary_raises Doubles.refusing 15 150 Doubles.ValueError.
Proof.
  split; [reflexivity|]. split; [reflexivity|].
  apply (only_the_package_raises Doubles.refusing (fresh_kernel "pygmodw25.sims")
           Doubles.ValueError); reflexivity.
Defined.

Lemma start_runs_on_constructed_instance_witness :
  sims_installed (@fresh_kernel Doubles.returning "pygmodw25.sims")
  /\ sim_init Doubles.returning [] (init_kwargs 15 150) = (["made"], Returned tt)
  /\ sim_start Doubles.returning tt [] [] = (["ran"], tt, Returned (VInt 7))
  /\ snd (run Doubles.returning smoke_test (fresh_kernel "pygmodw25.sims")) = Returned tt
  /\ heap (fst (run Doubles.returning smoke_test (fresh_kernel "pygmodw25.sims"))) = [tt]
  /\ globals (fst (run Doubles.returning smoke_test (fresh_kernel "pygmodw25.sims")))
       !! "test_simulation" = Some (VRef 0)
  /\ stdout (fst (run Doubles.returning smoke_test (fresh_kernel "pygmodw25.sims")))
     = ["made"; "ran"].
Proof.
  split; [reflexivity|]. split; [reflexivity|]. split; [reflexivity|].
  apply (start_runs_on_constructed_instance Doubles.returning (fresh_kernel "pygmodw25.sims")
           ["made"] ["ran"] tt tt (Returned (VInt 7))); reflexivity.
Defined.

Lemma failed_construction_keeps_old_binding_witness :
  sims_installed (@with_globals Doubles.refusing {[ "test_simulation" := VRef 4 ]}
                    (fresh_kernel "pygmodw25.sims"))
  /\ sim_init Doubles.refusing [] (init_kwargs 15 150) = (["checking"], Raised Doubles.ValueError)
  /\ globals (fst (run Doubles.refusing smoke_test
                     (with_globals {[ "test_simulation" := VRef 4 ]}
                        (fresh_kernel "pygmodw25.sims"))))
       !! "test_simulation" = Some (VRef 4).
Proof.
  split; [reflexivity|]. split; [reflexivity|].
  destruct (failed_construction_keeps_old_binding Doubles.refusing
              (with_globals {[ "test_simulation" := VRef 4 ]} (fresh_kernel "pygmodw25.sims"))
              ["checking"] Doubles.ValueError eq_refl eq_refl) as (_ & _ & _ & Hname).
  rewrite Hname. reflexivity.
Defined.
